(** * Kibana slice: the legacy alerting delete route, the rule-definition
      step of the detection-rule form, and two dashboard acceptance scripts.

    Shallow embedding of
    - [x-pack/plugins/alerting/server/routes/legacy/delete.ts]
    - the [StepDefineRuleComponent] effects on the custom query field, its
      alert suppression constants and its index pattern reset
    - [dashboard_error_handling.ts] and [interval_control.ts]. *)

From stdpp Require Import base option list strings gmap.

#[local] Set Warnings "-register-all".

(** ** Outcomes of JavaScript calls

    A call either returns (an awaited promise resolves) or throws (the
    promise rejects).  [Err] is the type of thrown values. *)

Inductive outcome (Err A : Type) : Type :=
| Return (a : A)
| Throw (e : Err).

Arguments Return {Err A} a.
Arguments Throw {Err A} e.

(** Effectful code threads a world [W] and may throw. *)
Definition Async (Err W A : Type) : Type := W → outcome Err A * W.

Global Instance async_ret {Err W} : MRet (Async Err W) :=
  λ A a w, (Return a, w).

Global Instance async_bind {Err W} : MBind (Async Err W) :=
  λ A B k m w,
    match m w with
    | (Return a, w') => k a w'
    | (Throw e, w') => (Throw e, w')
    end.

(** [await p] (or the plain call of a function whose result is already
    known): continue with the value, or throw the rejection. *)
Definition settle {Err W A} (p : outcome Err A) : Async Err W A :=
  λ w, (p, w).

(** [try { m } catch (e) { h e }] *)
Definition try_catch {Err W A} (m : Async Err W A) (h : Err → Async Err W A)
  : Async Err W A :=
  λ w,
    match m w with
    | (Return a, w') => (Return a, w')
    | (Throw e, w') => h e w'
    end.

(** ** The legacy delete route *)

Module LegacyDelete.

(** Values as they arrive in a request, before validation. *)
Inductive JsValue : Type :=
| JsUndefined
| JsNull
| JsBool (b : bool)
| JsNumber (n : Z)
| JsString (s : string)
| JsObject (fields : list (string * JsValue)).

(** Own property lookup, [obj[key]]. *)
Fixpoint get_prop (key : string) (fields : list (string * JsValue)) : option JsValue :=
  match fields with
  | [] => None
  | (k, v) :: rest => if decide (k = key) then Some v else get_prop key rest
  end.

(** Modelled from the spec: [@kbn/config-schema] is not under src/; the two
    combinators the route uses are [schema.string()] (the value is a string)
    and [schema.object({...})] (every declared key is present and conforms:
    "path parameter id (string, required)"). *)
Inductive Schema : Type :=
| schema_string
| schema_object (props : list (string * Schema)).

Fixpoint validate (s : Schema) (v : JsValue) {struct s} : bool :=
  match s with
  | schema_string => match v with JsString _ => true | _ => false end
  | schema_object props =>
      match v with
      | JsObject fields =>
          (fix all (ps : list (string * Schema)) : bool :=
             match ps with
             | [] => true
             | (k, sk) :: ps' =>
                 match get_prop k fields with
                 | Some vk => validate sk vk && all ps'
                 | None => false
                 end
             end) props
      | _ => false
      end
  end.

(** [{ id }]: the validated path parameters, and the argument of
    [rulesClient.delete]. *)
Record IdParams : Type := { id : string }.

Global Instance IdParams_eq_dec : EqDecision IdParams.
Proof. solve_decision. Defined.

(** [const paramSchema = schema.object({ id: schema.string() })] *)
Definition paramSchema : Schema := schema_object [("id", schema_string)].

(** The typed view of params that passed [paramSchema]. *)
Definition typed_params (raw : JsValue) : option IdParams :=
  match raw with
  | JsObject fields =>
      match get_prop "id" fields with
      | Some (JsString s) => Some {| id := s |}
      | _ => None
      end
  | _ => None
  end.

Record KibanaRequest : Type := { params : IdParams }.

Record KibanaResponse : Type := { status : Z; payload : option string }.

Global Instance KibanaResponse_eq_dec : EqDecision KibanaResponse.
Proof. solve_decision. Defined.

Record ErrorHttpResponseOptions : Type := { body : string }.

(** The [res] argument of a handler. *)
Record KibanaResponseFactory : Type := {
  badRequest : ErrorHttpResponseOptions → KibanaResponse;
  noContent : unit → KibanaResponse;
}.

(** Modelled from the spec: the response factory of the HTTP service is not
    under src/; "success response: HTTP 204 with empty body", "HTTP 400 with
    a plain-text body". *)
Definition kibanaResponseFactory : KibanaResponseFactory := {|
  badRequest := λ opts, {| status := 400; payload := Some (body opts) |};
  noContent := λ _, {| status := 204; payload := None |};
|}.

(** Calls the handler makes on its collaborators, in order. *)
Inductive Call : Type :=
| CallVerifyApiAccess
| CallTrackLegacyRouteUsage (route : string)
| CallGetRulesClient
| CallRulesClientDelete (args : IdParams).

Global Instance Call_eq_dec : EqDecision Call.
Proof. solve_decision. Defined.

Inductive RouteMethod : Type := GET | POST | PUT | PATCH | DELETE.

Inductive RouteAccess : Type := internal | public.

Record RouteOptions : Type := {
  access : RouteAccess;
  summary : string;
  tags : list string;
  deprecated : bool;
}.

Record RouteValidatorConfig : Type := { validate_params : Schema }.

Record RouteConfig : Type := {
  path : string;
  validate_config : RouteValidatorConfig;
  options : RouteOptions;
}.

Section Route.
(** Thrown values, the license state object, the usage counter object and
    the state the usage counters live in. *)
Context {Err ILicenseState UsageCounter UsageState : Type}.

(** What the handler can observe and change. *)
Record World : Type := {
  usage : UsageState;
  calls : list Call;
}.

Definition record_call (c : Call) : Async Err World unit :=
  λ w, (Return tt, {| usage := usage w; calls := calls w ++ [c] |}).

(** The world [w] after the further calls [cs], with usage counters [u]. *)
Definition after (w : World) (cs : list Call) (u : UsageState) : World :=
  {| usage := u; calls := calls w ++ cs |}.

(** The imports of delete.ts whose modules are not under src/. *)
Class Imports : Type := {
  (** [verifyApiAccess(licenseState)]: given the license state only, it
      returns or throws. *)
  verifyApiAccess : ILicenseState → outcome Err unit;
  (** [trackLegacyRouteUsage(route, usageCounter)]: its effect on the
      usage counters. *)
  trackLegacyRouteUsage : string → option UsageCounter → UsageState → UsageState;
  (** [LEGACY_BASE_ALERT_API_PATH] *)
  LEGACY_BASE_ALERT_API_PATH : string;
  (** What [router.handleLegacyErrors] answers for a caught error (it may
      throw it again). *)
  legacyErrorResponse : Err → outcome Err KibanaResponse;
}.

Context `{Imports}.

(** The rules client: [delete({ id })] resolves or rejects. *)
Record RulesClient : Type := {
  delete : IdParams → outcome Err unit;
}.

(** What [await context.alerting] gives. *)
Record AlertingApiRequestHandlerContext : Type := {
  getRulesClient : unit → outcome Err RulesClient;
}.

(** [context.alerting] is absent or a promise of the alerting API. *)
Record RequestHandlerContext : Type := {
  alerting : option (outcome Err AlertingApiRequestHandlerContext);
}.

Definition RequestHandler : Type :=
  RequestHandlerContext → KibanaRequest → KibanaResponseFactory →
  Async Err World KibanaResponse.

Record RegisteredRoute : Type := {
  method : RouteMethod;
  config : RouteConfig;
  handler : RequestHandler;
}.

Record AlertingRouter : Type := { routes : list RegisteredRoute }.

(** [router.delete(config, handler)] *)
Definition router_delete (router : AlertingRouter) (cfg : RouteConfig)
    (h : RequestHandler) : AlertingRouter :=
  {| routes := routes router ++ [{| method := DELETE; config := cfg; handler := h |}] |}.

(** Modelled from the spec: [router.handleLegacyErrors] is not under src/;
    "a shared legacy-error-wrapping facility to translate internal failures
    to HTTP responses": the wrapped handler's response passes through, an
    error it throws is caught and answered by [legacyErrorResponse]. *)
Definition handleLegacyErrors (h : RequestHandler) : RequestHandler :=
  λ context req res,
    try_catch (h context req res) (λ e, settle (legacyErrorResponse e)).

Definition call_verifyApiAccess (licenseState : ILicenseState) : Async Err World unit :=
  record_call CallVerifyApiAccess ;; settle (verifyApiAccess licenseState).

Definition call_trackLegacyRouteUsage (route : string)
    (usageCounter : option UsageCounter) : Async Err World unit :=
  λ w, (Return tt,
        {| usage := trackLegacyRouteUsage route usageCounter (usage w);
           calls := calls w ++ [CallTrackLegacyRouteUsage route] |}).

Definition call_getRulesClient (api : AlertingApiRequestHandlerContext)
  : Async Err World RulesClient :=
  record_call CallGetRulesClient ;; settle (getRulesClient api ()).

Definition call_delete (rulesClient : RulesClient) (args : IdParams)
  : Async Err World unit :=
  record_call (CallRulesClientDelete args) ;; settle (delete rulesClient args).

(** The function passed to [router.handleLegacyErrors] (delete.ts 40-50). *)
Definition deleteAlertHandler (licenseState : ILicenseState)
    (usageCounter : option UsageCounter) : RequestHandler :=
  λ context req res,
    call_verifyApiAccess licenseState ;;
    match alerting context with
    | None =>
        mret (badRequest res
                {| body := "RouteHandlerContext is not registered for alerting" |})
    | Some alertingPromise =>
        call_trackLegacyRouteUsage "delete" usageCounter ;;
        api ← settle alertingPromise;
        rulesClient ← call_getRulesClient api;
        let args := {| id := id (params req) |} in
        call_delete rulesClient args ;;
        mret (noContent res ())
    end.

(** [deleteAlertRoute(router, licenseState, usageCounter?, isServerless?)] *)
Definition deleteAlertRoute (router : AlertingRouter) (licenseState : ILicenseState)
    (usageCounter : option UsageCounter) (isServerless : option bool)
  : AlertingRouter :=
  router_delete router
    {| path := LEGACY_BASE_ALERT_API_PATH +:+ "/alert/{id}";
       validate_config := {| validate_params := paramSchema |};
       options := {| access := if default false isServerless then internal else public;
                     summary := "Delete an alert";
                     tags := ["oas-tag:alerting"];
                     deprecated := true |} |}
    (handleLegacyErrors (deleteAlertHandler licenseState usageCounter)).

(** What serving a request on a registered route yields. *)
Inductive Served : Type :=
| Rejected
| Handled (response : KibanaResponse).

(** Modelled from the spec: the router's dispatch is not under src/; the
    endpoint "validates a path parameter" and only then runs the handler. *)
Definition serve (route : RegisteredRoute) (context : RequestHandlerContext)
    (raw_params : JsValue) (res : KibanaResponseFactory) : Async Err World Served :=
  if validate (validate_params (validate_config (config route))) raw_params then
    match typed_params raw_params with
    | Some p => r ← handler route context {| params := p |} res; mret (Handled r)
    | None => mret Rejected
    end
  else mret Rejected.

End Route.

End LegacyDelete.

(** ** The rule-definition step of the detection-rule form

    [StepDefineRuleComponent]: the two effects that keep the custom query
    field in step with the rule type. *)

Module RuleType.
(** The rule type discriminant ([Type]): a union of string literals. *)
Inductive t : Type :=
| eql | esql | machine_learning | query | saved_query
| threshold | threat_match | new_terms.
End RuleType.

Global Instance RuleType_eq_dec : EqDecision RuleType.t.
Proof. solve_decision. Defined.

Module Query.
(** [{ query, language }] *)
Record t : Type := { query : string; language : string }.
End Query.

Global Instance Query_eq_dec : EqDecision Query.t.
Proof. solve_decision. Defined.

Module StepDefineRule.

(** [isThreatMatchRule(ruleType)] and [isEsqlRule(ruleType)] of
    common/detection_engine/utils (not under src/): the rule type is the
    literal named; [undefined] is neither. *)
Definition isThreatMatchRule (ruleType : option RuleType.t) : bool :=
  bool_decide (ruleType = Some RuleType.threat_match).

Definition isEsqlRule (ruleType : option RuleType.t) : bool :=
  bool_decide (ruleType = Some RuleType.esql).

Section Form.
(** Filters of the query bar are compared, never inspected. *)
Context {Filter : Type} `{EqDecision Filter}.

(** [DefineStepRule['queryBar']] *)
Record FieldValueQueryBar : Type := {
  filters : list Filter;
  query : option Query.t;
  saved_id : option string;
}.

#[export] Instance FieldValueQueryBar_eq_dec : EqDecision FieldValueQueryBar.
Proof. solve_decision. Defined.

Record DefaultCustomQuery : Type := {
  forNormalRules : FieldValueQueryBar;
  forThreatMatchRules : FieldValueQueryBar;
  forEsqlRules : FieldValueQueryBar;
}.

(** Modelled from the spec: the constant [defaultCustomQuery] is imported
    from detections/pages/detection_engine/rules/utils, which is not under
    src/.  The query strings are the ones the component documents ("from
    '' to '*:*'"); the ES|QL default is an empty query in the language the
    component tests for. *)
Definition defaultCustomQuery : DefaultCustomQuery := {|
  forNormalRules :=
    {| filters := [];
       query := Some {| Query.query := ""; Query.language := "kuery" |};
       saved_id := None |};
  forThreatMatchRules :=
    {| filters := [];
       query := Some {| Query.query := "*:*"; Query.language := "kuery" |};
       saved_id := None |};
  forEsqlRules :=
    {| filters := [];
       query := Some {| Query.query := ""; Query.language := "esql" |};
       saved_id := None |};
|}.

(** lodash [isEqual(value, other)]: deep comparison by value. *)
Definition isEqual (value : option FieldValueQueryBar) (other : FieldValueQueryBar) : bool :=
  bool_decide (value = Some other).

(** The field hook [getFields().queryBar]; its value may be undefined. *)
Record FieldHook : Type := { value : option FieldValueQueryBar }.

(** [field.reset({ defaultValue })] *)
Definition reset (defaultValue : FieldValueQueryBar) (field : FieldHook) : FieldHook :=
  {| value := Some defaultValue |}.

(** [field.setValue(v)]: what typing into the query bar does. *)
Definition setValue (v : FieldValueQueryBar) (field : FieldHook) : FieldHook :=
  {| value := Some v |}.

(** The state the two effects read and write. *)
Record Component : Type := {
  (** [getFields().queryBar], absent while the field is not mounted *)
  queryBar : option FieldHook;
  (** [esqlQueryRef.current] *)
  esqlQueryRef : option FieldValueQueryBar;
  (** the ref behind [usePrevious(ruleType)] *)
  previousRef : option RuleType.t;
}.

Definition with_queryBar (field : FieldHook) (c : Component) : Component :=
  {| queryBar := Some field; esqlQueryRef := esqlQueryRef c; previousRef := previousRef c |}.

Definition with_esqlQueryRef (v : FieldValueQueryBar) (c : Component) : Component :=
  {| queryBar := queryBar c; esqlQueryRef := Some v; previousRef := previousRef c |}.

(** The effect of lines 290-333. *)
Definition threatMatchQueryEffect (ruleType : RuleType.t)
    (previousRuleType : option RuleType.t) (c : Component) : Component :=
  match queryBar c with
  | None => c
  | Some currentQuery =>
      let returned :=
        if isThreatMatchRule (Some ruleType) && negb (isThreatMatchRule previousRuleType) then
          if isEqual (value currentQuery) (forNormalRules defaultCustomQuery) then
            Some (with_queryBar (reset (forThreatMatchRules defaultCustomQuery) currentQuery) c)
          else None
        else None in
      match returned with
      | Some c' => c'
      | None =>
          if negb (isThreatMatchRule (Some ruleType)) && isThreatMatchRule previousRuleType then
            if isEqual (value currentQuery) (forThreatMatchRules defaultCustomQuery) then
              with_queryBar (reset (forNormalRules defaultCustomQuery) currentQuery) c
            else c
          else c
      end
  end.

(** [currentQueryValue?.query?.language === 'esql'] *)
Definition hasEsqlLanguage (currentQueryValue : option FieldValueQueryBar) : bool :=
  match currentQueryValue with
  | Some v =>
      match query v with
      | Some q => bool_decide (Query.language q = "esql")
      | None => false
      end
  | None => false
  end.

(** The effect of lines 340-370. *)
Definition esqlQueryEffect (ruleType : RuleType.t)
    (previousRuleType : option RuleType.t) (c : Component) : Component :=
  match queryBar c with
  | None => c
  | Some currentQuery =>
      let currentQueryValue := value currentQuery in
      if isEsqlRule (Some ruleType) then
        if bool_decide (is_Some previousRuleType) && negb (isEsqlRule previousRuleType) then
          with_queryBar
            (reset (default (forEsqlRules defaultCustomQuery) (esqlQueryRef c)) currentQuery) c
        else c
      else if isEsqlRule previousRuleType then
        let c1 :=
          if hasEsqlLanguage currentQueryValue then
            match currentQueryValue with
            | Some v => with_esqlQueryRef v c
            | None => c
            end
          else c in
        let defaultValue :=
          if isThreatMatchRule (Some ruleType)
          then forThreatMatchRules defaultCustomQuery
          else forNormalRules defaultCustomQuery in
        with_queryBar (reset defaultValue currentQuery) c1
      else c
  end.

(** One render with the prop [ruleType]: [usePrevious] hands out the rule
    type of the render before and remembers this one; then the two effects
    run in the order they are declared.  Both depend on [ruleType] and
    [previousRuleType]; a render in which neither has changed has the two
    equal, and there the effects do nothing when they are run.  The effect
    declared before them, [reset({ resetValues: false })], keeps the values
    of the fields. *)
Definition render (ruleType : RuleType.t) (c : Component) : Component :=
  let previousRuleType := previousRef c in
  let c1 := threatMatchQueryEffect ruleType previousRuleType c in
  let c2 := esqlQueryEffect ruleType previousRuleType c1 in
  {| queryBar := queryBar c2; esqlQueryRef := esqlQueryRef c2;
     previousRef := Some ruleType |}.

(** The user types a query into the mounted query bar. *)
Definition userEdit (v : FieldValueQueryBar) (c : Component) : Component :=
  match queryBar c with
  | Some field => with_queryBar (setValue v field) c
  | None => c
  end.

(** The custom query the form holds. *)
Definition queryBarValue (c : Component) : option FieldValueQueryBar :=
  field ← queryBar c; value field.

(** What the user does between two renders of the step. *)
Inductive Action : Type :=
| SelectRuleType (ruleType : RuleType.t)
| EditQuery (v : FieldValueQueryBar).

Definition step (c : Component) (a : Action) : Component :=
  match a with
  | SelectRuleType ruleType => render ruleType c
  | EditQuery v => userEdit v c
  end.

Definition run (actions : list Action) (c : Component) : Component :=
  foldl step c actions.

(** The default the first effect compares the field with: the one of the
    previous rule type. *)
Definition previousDefault (previousRuleType : option RuleType.t) : FieldValueQueryBar :=
  if isThreatMatchRule previousRuleType
  then forThreatMatchRules defaultCustomQuery
  else forNormalRules defaultCustomQuery.

(** The default of the rule type switched to. *)
Definition defaultFor (ruleType : RuleType.t) : FieldValueQueryBar :=
  match ruleType with
  | RuleType.threat_match => forThreatMatchRules defaultCustomQuery
  | RuleType.esql => forEsqlRules defaultCustomQuery
  | _ => forNormalRules defaultCustomQuery
  end.

(** *** The same render when a field hook is a snapshot

    A field hook object holds the value of the render it was made in, and
    [reset] schedules the value of the next one; both effects then read
    the value from before the first effect ran, and the reset issued last
    wins. *)
Record Snapshot : Type := {
  snap_value : option FieldValueQueryBar;
  snap_resets : list FieldValueQueryBar;
  snap_ref : option FieldValueQueryBar;
}.

Definition snap_threatMatchQueryEffect (ruleType : RuleType.t)
    (previousRuleType : option RuleType.t) (s : Snapshot) : Snapshot :=
  let issue d :=
    {| snap_value := snap_value s; snap_resets := snap_resets s ++ [d];
       snap_ref := snap_ref s |} in
  let returned :=
    if isThreatMatchRule (Some ruleType) && negb (isThreatMatchRule previousRuleType) then
      if isEqual (snap_value s) (forNormalRules defaultCustomQuery) then
        Some (issue (forThreatMatchRules defaultCustomQuery))
      else None
    else None in
  match returned with
  | Some s' => s'
  | None =>
      if negb (isThreatMatchRule (Some ruleType)) && isThreatMatchRule previousRuleType then
        if isEqual (snap_value s) (forThreatMatchRules defaultCustomQuery) then
          issue (forNormalRules defaultCustomQuery)
        else s
      else s
  end.

Definition snap_esqlQueryEffect (ruleType : RuleType.t)
    (previousRuleType : option RuleType.t) (s : Snapshot) : Snapshot :=
  if isEsqlRule (Some ruleType) then
    if bool_decide (is_Some previousRuleType) && negb (isEsqlRule previousRuleType) then
      {| snap_value := snap_value s;
         snap_resets := snap_resets s ++ [default (forEsqlRules defaultCustomQuery) (snap_ref s)];
         snap_ref := snap_ref s |}
    else s
  else if isEsqlRule previousRuleType then
    let ref' :=
      if hasEsqlLanguage (snap_value s) then
        match snap_value s with Some v => Some v | None => snap_ref s end
      else snap_ref s in
    let defaultValue :=
      if isThreatMatchRule (Some ruleType)
      then forThreatMatchRules defaultCustomQuery
      else forNormalRules defaultCustomQuery in
    {| snap_value := snap_value s; snap_resets := snap_resets s ++ [defaultValue];
       snap_ref := ref' |}
  else s.

Definition snap_render (ruleType : RuleType.t) (c : Component) : Component :=
  match queryBar c with
  | None =>
      {| queryBar := None; esqlQueryRef := esqlQueryRef c; previousRef := Some ruleType |}
  | Some currentQuery =>
      let s0 := {| snap_value := value currentQuery; snap_resets := [];
                   snap_ref := esqlQueryRef c |} in
      let s1 := snap_threatMatchQueryEffect ruleType (previousRef c) s0 in
      let s2 := snap_esqlQueryEffect ruleType (previousRef c) s1 in
      {| queryBar := Some {| value := default (snap_value s2) (Some <$> last (snap_resets s2)) |};
         esqlQueryRef := snap_ref s2;
         previousRef := Some ruleType |}
  end.

End Form.

Arguments FieldValueQueryBar : clear implicits.
Arguments DefaultCustomQuery : clear implicits.
Arguments FieldHook : clear implicits.
Arguments Component : clear implicits.
Arguments Action : clear implicits.
Arguments Snapshot : clear implicits.

End StepDefineRule.


(** ** The dashboard acceptance scripts

    The scripts are under src/; the application they drive is not. *)

Module Ftr.

(** [hay.startsWith(needle)] and [hay.includes(needle)] *)
Fixpoint starts_with (needle hay : string) : bool :=
  match needle, hay with
  | EmptyString, _ => true
  | String a needle', String b hay' => bool_decide (a = b) && starts_with needle' hay'
  | String _ _, EmptyString => false
  end.

Fixpoint includes (hay needle : string) : bool :=
  starts_with needle hay ||
  match hay with
  | EmptyString => false
  | String _ hay' => includes hay' needle
  end.

(** A failed expectation throws. *)
Definition expect_to_contain {W} (actual expected : string) : Async string W unit :=
  if includes actual expected then settle (Return ())
  else settle (Throw ("expected '" +:+ actual +:+ "' to contain '" +:+ expected +:+ "'")).





End Ftr.

Module DashboardErrorHandling.
Import Ftr.

(** A panel of a saved dashboard and the data view it references. *)
Record Panel : Type := { panelTitle : string; dataViewId : string }.

Record SavedDashboard : Type := { panels : list Panel }.

(** The saved objects the server holds: dashboards by title, data views by
    id. *)
Record SavedObjects : Type := {
  dashboards : gmap string SavedDashboard;
  dataViews : gset string;
}.

(** What [testSubjects] sees of the page. *)
Record WebElement : Type := { testSubj : string; visibleText : string }.

Record Browser : Type := {
  savedObjects : SavedObjects;
  page : list WebElement;
}.

Section App.
(** The rest of the error message after the phrase the script looks for. *)
Variable missingDataViewDetail : string → string.

(** Modelled from the spec: the dashboard application is not under src/;
    "loading a dashboard referencing a missing data view surfaces the text
    'Could not locate that data view'", in the element the script finds
    under the test subject embeddableError. *)
Definition renderPanel (so : SavedObjects) (p : Panel) : WebElement :=
  if decide (dataViewId p ∈ dataViews so) then
    {| testSubj := "embeddablePanel"; visibleText := panelTitle p |}
  else
    {| testSubj := "embeddableError";
       visibleText := "Could not locate that data view" +:+ missingDataViewDetail (dataViewId p) |}.

Definition dashboard_gotoDashboardLandingPage : Async string Browser unit :=
  λ b, (Return (), {| savedObjects := savedObjects b; page := [] |}).

Definition dashboard_loadSavedDashboard (title : string) : Async string Browser unit :=
  λ b,
    match dashboards (savedObjects b) !! title with
    | Some d =>
        (Return (), {| savedObjects := savedObjects b;
                       page := renderPanel (savedObjects b) <$> panels d |})
    | None => (Throw ("no dashboard named " +:+ title), b)
    end.

Definition header_waitUntilLoadingHasFinished : Async string Browser unit :=
  settle (Return ()).

(** [testSubjects.find(subj)]: the first element with the test subject. *)
Definition testSubjects_find (subj : string) : Async string Browser WebElement :=
  λ b,
    match List.find (λ e, bool_decide (testSubj e = subj)) (page b) with
    | Some e => (Return e, b)
    | None => (Throw ("no element with test subject " +:+ subj), b)
    end.

Definition getVisibleText (e : WebElement) : Async string Browser string :=
  settle (Return (visibleText e)).

(** [it('shows the missing data view error message', ...)]
    (dashboard_error_handling.ts 56-64) *)
Definition shows_the_missing_data_view_error_message : Async string Browser unit :=
  dashboard_gotoDashboardLandingPage ;;
  dashboard_loadSavedDashboard "dashboard with missing index pattern" ;;
  header_waitUntilLoadingHasFinished ;;
  embeddableError ← testSubjects_find "embeddableError";
  errorMessage ← getVisibleText embeddableError;
  expect_to_contain errorMessage "Could not locate that data view".

End App.

End DashboardErrorHandling.

Module EsqlIntervalControl.
Import Ftr.





























End EsqlIntervalControl.


(** ** A concrete deployment of the delete route

    Errors are messages, the license state says whether the license allows
    the alerting API, and the usage counters are one number. *)

Module LegacyDeleteDemo.
Import LegacyDelete.

#[export] Instance demoImports : @Imports string bool unit nat := {|
  verifyApiAccess := λ licensed : bool,
    if licensed then Return () else Throw "license does not allow alerting";
  trackLegacyRouteUsage := λ _ usageCounter n,
    match usageCounter with Some _ => S n | None => n end;
  LEGACY_BASE_ALERT_API_PATH := "/api/alerts";
  legacyErrorResponse := λ e, Return {| status := 403; payload := Some e |};
|}.

Definition rulesClient : @RulesClient string := {| delete := λ _, Return () |}.

Definition registeredContext : @RequestHandlerContext string :=
  {| alerting := Some (Return {| getRulesClient := λ _, Return rulesClient |}) |}.

Definition unregisteredContext : @RequestHandlerContext string := {| alerting := None |}.

(** A context whose alerting API cannot hand out a rules client. *)
Definition brokenContext : @RequestHandlerContext string :=
  {| alerting := Some (Return {| getRulesClient := λ _, Throw "no rules client" |}) |}.

Definition request : KibanaRequest := {| params := {| id := "rule-1" |} |}.

Definition idle : @World nat := {| usage := 0; calls := [] |}.

End LegacyDeleteDemo.


(** ** Concrete states of the rule-definition step

    Filters are written as strings here. *)

Module StepDefineRuleDemo.
Import StepDefineRule.

(** A custom query the user typed. *)
Definition userQuery : FieldValueQueryBar string :=
  {| filters := [];
     query := Some {| Query.query := "host.name: web-1"; Query.language := "kuery" |};
     saved_id := None |}.

(** An ES|QL query the user typed. *)
Definition userEsqlQuery : FieldValueQueryBar string :=
  {| filters := [];
     query := Some {| Query.query := "FROM logs | LIMIT 10"; Query.language := "esql" |};
     saved_id := None |}.

(** The step with the query bar mounted, holding [v], last rendered with
    rule type [previous]. *)
Definition mounted (v : FieldValueQueryBar string) (previous : RuleType.t)
  : Component string :=
  {| queryBar := Some {| value := Some v |}; esqlQueryRef := None;
     previousRef := Some previous |}.

(** Under threat_match with the untouched threat-match default, after an
    earlier visit to ES|QL that left [userEsqlQuery] stored. *)
Definition returningToEsql : Component string :=
  {| queryBar := Some {| value := Some (forThreatMatchRules defaultCustomQuery) |};
     esqlQueryRef := Some userEsqlQuery;
     previousRef := Some RuleType.threat_match |}.

End StepDefineRuleDemo.


(** ** A server with the dashboard of the error-handling script *)

Module DashboardErrorHandlingDemo.
Import DashboardErrorHandling.

Definition missingDataViewDetail (dataViewId : string) : string :=
  " (id: " +:+ dataViewId +:+ ")".

Definition areaPanel : Panel :=
  {| panelTitle := "Rendering Test: area"; dataViewId := "logstash-*" |}.

Definition orphanPanel : Panel :=
  {| panelTitle := "Rendering Test: orphan"; dataViewId := "to-be-deleted" |}.

Definition server : SavedObjects :=
  {| dashboards :=
       {[ "dashboard with missing index pattern" := {| panels := [areaPanel; orphanPanel] |} ]};
     dataViews := {[ "logstash-*" ]} |}.

Definition browser : Browser := {| savedObjects := server; page := [] |}.

End DashboardErrorHandlingDemo.


(** ** Alert suppression fields and index patterns of the rule-definition step

    [StepDefineRuleComponent], lines 276-282, 382-390, 448-498 and
    896-913. *)

Module StepDefineRuleFields.
Import StepDefineRule.

(** [isEqlRule] and [isThresholdRule] of common/detection_engine/utils and
    [isMlRule] of common/machine_learning/helpers (not under src/): the
    rule type is the literal named. *)
Definition isEqlRule (ruleType : RuleType.t) : bool :=
  bool_decide (ruleType = RuleType.eql).

Definition getIsThresholdRule (ruleType : RuleType.t) : bool :=
  bool_decide (ruleType = RuleType.threshold).

Definition isMlRule (ruleType : RuleType.t) : bool :=
  bool_decide (ruleType = RuleType.machine_learning).

Section Suppression.
Context {Filter FieldSpec : Type}.

(** [isEqlSequenceQuery] of common/detection_engine/utils (not under
    src/), given [queryBar?.query?.query]. *)
Variable isEqlSequenceQuery : option string → bool.

(** The texts of ./translations the tooltip chooses from. *)
Variable EQL_SEQUENCE_SUPPRESSION_DISABLE_TOOLTIP : string.
Variable MACHINE_LEARNING_SUPPRESSION_DISABLED_LABEL : string.

(** The props and hook results the suppression constants are computed
    from. *)
Record SuppressionInputs : Type := {
  ruleType : RuleType.t;
  alertSuppressionFields : option (list string);
  watchedQueryBar : option (FieldValueQueryBar Filter);
  isAlertSuppressionLicenseValid : bool;
  mlRuleConfigLoading : bool;
  mlSuppressionFields : list FieldSpec;
  esqlSuppressionFields : list FieldSpec;
  isEsqlSuppressionLoading : bool;
  termsAggregationFields : list FieldSpec;
  alertSuppressionUpsellingMessage : string;
}.

(** [queryBar?.query?.query] *)
Definition queryText (queryBar : option (FieldValueQueryBar Filter)) : option string :=
  v ← queryBar; q ← query v; Some (Query.query q).

(** [isThresholdRule || Boolean(alertSuppressionFields?.length)] *)
Definition areSuppressionFieldsSelected (i : SuppressionInputs) : bool :=
  getIsThresholdRule (ruleType i) ||
  match alertSuppressionFields i with
  | Some fields => negb (bool_decide (length fields = 0))
  | None => false
  end.

(** [isEqlRule(ruleType) && isEqlSequenceQuery(...) &&
     alertSuppressionFields?.length === 0] *)
Definition areSuppressionFieldsDisabledBySequence (i : SuppressionInputs) : bool :=
  isEqlRule (ruleType i) &&
  isEqlSequenceQuery (queryText (watchedQueryBar i)) &&
  match alertSuppressionFields i with
  | Some fields => bool_decide (length fields = 0)
  | None => false
  end.

(** [isMlRule(ruleType) && (mlRuleConfigLoading || !mlSuppressionFields.length)] *)
Definition areSuppressionFieldsDisabledByMlFields (i : SuppressionInputs) : bool :=
  isMlRule (ruleType i) &&
  (mlRuleConfigLoading i || bool_decide (length (mlSuppressionFields i) = 0)).

Definition areSuppressionFieldsDisabled (i : SuppressionInputs) : bool :=
  negb (isAlertSuppressionLicenseValid i) ||
  areSuppressionFieldsDisabledBySequence i ||
  areSuppressionFieldsDisabledByMlFields i.

Definition isSuppressionGroupByDisabled (i : SuppressionInputs) : bool :=
  (areSuppressionFieldsDisabled i || isEsqlSuppressionLoading i) &&
  negb (areSuppressionFieldsSelected i).

Definition suppressionGroupByDisabledText (i : SuppressionInputs) : string :=
  if areSuppressionFieldsDisabledBySequence i then EQL_SEQUENCE_SUPPRESSION_DISABLE_TOOLTIP
  else if areSuppressionFieldsDisabledByMlFields i then
    MACHINE_LEARNING_SUPPRESSION_DISABLED_LABEL
  else alertSuppressionUpsellingMessage i.

Definition suppressionGroupByFields (i : SuppressionInputs) : list FieldSpec :=
  if isEsqlRule (Some (ruleType i)) then esqlSuppressionFields i
  else if isMlRule (ruleType i) then mlSuppressionFields i
  else termsAggregationFields i.

(** The [disabled] prop of the suppression input the step renders (lines
    896-913): [ThresholdAlertSuppressionEdit] for a threshold rule,
    [AlertSuppressionEdit] for every other one. *)
Definition alertSuppressionEditDisabled (i : SuppressionInputs) : bool :=
  if getIsThresholdRule (ruleType i) then negb (isAlertSuppressionLicenseValid i)
  else isSuppressionGroupByDisabled i.

(** Its [disabledText] prop. *)
Definition alertSuppressionEditDisabledText (i : SuppressionInputs) : string :=
  if getIsThresholdRule (ruleType i) then alertSuppressionUpsellingMessage i
  else suppressionGroupByDisabledText i.

End Suppression.

(** The index patterns of the rule and whether they differ from the
    configured ones (the same code serves the threat index patterns). *)
Record IndexPatterns : Type := {
  index : list string;
  indexModified : bool;
}.

(** [useState(false)] *)
Definition initialIndexPatterns (index : list string) : IndexPatterns :=
  {| index := index; indexModified := false |}.



(** The user edits the index patterns field. *)
Definition setIndex (index : list string) (s : IndexPatterns) : IndexPatterns :=
  {| index := index; indexModified := indexModified s |}.

Section SavedQuery.
Context {Filter : Type}.

(** The saved ES|QL query ([esqlQueryRef.current]), once there is one, is
    in the ES|QL language. *)
Definition saved_query_is_esql (c : Component Filter) : Prop :=
  ∀ v, esqlQueryRef c = Some v → hasEsqlLanguage (Some v) = true.

End SavedQuery.

End StepDefineRuleFields.


(** ** Concrete inputs of the suppression fields and a freshly loaded step *)

Module StepDefineRuleFieldsDemo.
Import StepDefineRule StepDefineRuleFields.

(** A stand-in for [isEqlSequenceQuery]: the query starts with the word. *)
Definition startsWithSequence (q : option string) : bool :=
  match q with
  | Some text => Ftr.starts_with "sequence" text
  | None => false
  end.

Definition sequenceQuery : FieldValueQueryBar string :=
  {| filters := [];
     query := Some {| Query.query := "sequence [process where true] [network where true]";
                      Query.language := "eql" |};
     saved_id := None |}.

(** An EQL rule with a sequence query under a sufficient license. *)
Definition eqlSequenceRule (fields : option (list string)) : @SuppressionInputs string string :=
  {| ruleType := RuleType.eql;
     alertSuppressionFields := fields;
     watchedQueryBar := Some sequenceQuery;
     isAlertSuppressionLicenseValid := true;
     mlRuleConfigLoading := false;
     mlSuppressionFields := [];
     esqlSuppressionFields := [];
     isEsqlSuppressionLoading := false;
     termsAggregationFields := ["host.name"; "user.name"];
     alertSuppressionUpsellingMessage := "Alert suppression needs a Platinum license" |}.

(** The step as it mounts with the stored rule's query [v]: nothing
    rendered before, no ES|QL query saved. *)
Definition loaded (v : FieldValueQueryBar string) : Component string :=
  {| queryBar := Some {| value := Some v |}; esqlQueryRef := None; previousRef := None |}.

End StepDefineRuleFieldsDemo.


(** * Properties *)

(** ** The legacy delete route *)

Module LegacyDeleteFacts.
Import LegacyDelete.

Section Route.
Context {Err ILicenseState UsageCounter UsageState : Type}.
Context `{!@Imports Err ILicenseState UsageCounter UsageState}.

Implicit Types (licenseState : ILicenseState) (usageCounter : option UsageCounter).
Implicit Types (context : @RequestHandlerContext Err) (req : KibanaRequest).
Implicit Types (res : KibanaResponseFactory) (w : @World UsageState).

(** The handler, path by path: which calls it makes, what happens to the
    usage counters, and what it returns or throws. *)
Lemma deleteAlertHandler_paths licenseState usageCounter context req res w :
  deleteAlertHandler licenseState usageCounter context req res w =
  match verifyApiAccess licenseState with
  | Throw e => (Throw e, after w [CallVerifyApiAccess] (usage w))
  | Return _ =>
      match alerting context with
      | None =>
          (Return (badRequest res
                     {| body := "RouteHandlerContext is not registered for alerting" |}),
           after w [CallVerifyApiAccess] (usage w))
      | Some alertingPromise =>
          let u := trackLegacyRouteUsage "delete" usageCounter (usage w) in
          let tracked := [CallVerifyApiAccess; CallTrackLegacyRouteUsage "delete"] in
          match alertingPromise with
          | Throw e => (Throw e, after w tracked u)
          | Return api =>
              match getRulesClient api () with
              | Throw e => (Throw e, after w (tracked ++ [CallGetRulesClient]) u)
              | Return rulesClient =>
                  let args := {| id := id (params req) |} in
                  (match delete rulesClient args with
                   | Throw e => Throw e
                   | Return _ => Return (noContent res ())
                   end,
                   after w (tracked ++ [CallGetRulesClient; CallRulesClientDelete args]) u)
              end
          end
      end
  end.
Proof.
  unfold deleteAlertHandler, call_verifyApiAccess, call_trackLegacyRouteUsage,
    call_getRulesClient, call_delete, record_call, settle, after.
  unfold mbind, async_bind, mret, async_ret; cbn.
  destruct (verifyApiAccess licenseState) as [[]|e]; [|reflexivity].
  destruct (alerting context) as [[api|e]|]; cbn; rewrite <- ?app_assoc;
    try reflexivity.
  destruct (getRulesClient api ()) as [rulesClient|e]; cbn;
    rewrite <- ?app_assoc; cbn; [|reflexivity].
  destruct (delete rulesClient _) as [[]|e]; rewrite <- ?app_assoc; reflexivity.
Qed.

(** C1 (amended).  When license verification succeeds, the alerting
    context is available and hands out a rules client, the handler calls
    [delete({ id })] once, with exactly the id of the request's path
    parameters; when that call succeeds the handler returns HTTP 204 with an
    empty body, and when it fails the handler throws the same error. *)
Theorem delete_forwards_id_when_licensed
    licenseState usageCounter context req w api rulesClient :
  verifyApiAccess licenseState = Return () →
  alerting context = Some (Return api) →
  getRulesClient api () = Return rulesClient →
  let args := {| id := id (params req) |} in
  let '(r, w') :=
    deleteAlertHandler licenseState usageCounter context req kibanaResponseFactory w in
  calls w' = calls w ++ [CallVerifyApiAccess; CallTrackLegacyRouteUsage "delete";
                         CallGetRulesClient; CallRulesClientDelete args]
  ∧ (delete rulesClient args = Return () →
     r = Return {| status := 204; payload := None |})
  ∧ (∀ e, delete rulesClient args = Throw e → r = Throw e).
Proof.
  intros Hlicense Hcontext Hclient args.
  rewrite deleteAlertHandler_paths, Hlicense, Hcontext, Hclient; cbn.
  split; [reflexivity|].
  fold args. split.
  - intros ->. reflexivity.
  - intros e ->. reflexivity.
Qed.

(** C2 (amended).  When the alerting context is unavailable the handler
    makes no call but license verification, so [rulesClient.delete] is not
    invoked; if license verification succeeds it returns HTTP 400 with the
    plain-text body, and if license verification throws it throws that
    error. *)
Theorem missing_context_is_400_without_delete
    licenseState usageCounter context req w :
  alerting context = None →
  let '(r, w') :=
    deleteAlertHandler licenseState usageCounter context req kibanaResponseFactory w in
  calls w' = calls w ++ [CallVerifyApiAccess]
  ∧ (verifyApiAccess licenseState = Return () →
     r = Return {| status := 400;
                   payload := Some "RouteHandlerContext is not registered for alerting" |})
  ∧ (∀ e, verifyApiAccess licenseState = Throw e → r = Throw e).
Proof.
  intros Hcontext.
  rewrite deleteAlertHandler_paths, Hcontext.
  destruct (verifyApiAccess licenseState) as [[]|e]; cbn.
  - split; [reflexivity|]. split; [reflexivity|]. intros e [=].
  - split; [reflexivity|]. split; [intros [=]|]. intros e' [= ->]. reflexivity.
Qed.

(** C3.  [deleteAlertRoute] registers one more route: method DELETE, path
    [LEGACY_BASE_ALERT_API_PATH/alert/{id}], params validated by
    [paramSchema], handler wrapped by [handleLegacyErrors].  Params pass
    [paramSchema] exactly when they are an object whose [id] is a string.
    Serving a request whose params do not pass is rejected with the world
    untouched, so the handler has not run; params that pass reach the
    handler with that [id]. *)
Theorem delete_route_registration_and_validation :
  (∀ router licenseState usageCounter isServerless,
      ∃ route, routes (deleteAlertRoute router licenseState usageCounter isServerless)
               = routes router ++ [route]
        ∧ method route = DELETE
        ∧ path (config route) = LEGACY_BASE_ALERT_API_PATH +:+ "/alert/{id}"
        ∧ validate_params (validate_config (config route)) = paramSchema
        ∧ handler route = handleLegacyErrors (deleteAlertHandler licenseState usageCounter))
  ∧ (∀ raw, validate paramSchema raw = true ↔
            ∃ fields s, raw = JsObject fields ∧ get_prop "id" fields = Some (JsString s))
  ∧ (∀ (route : @RegisteredRoute Err UsageState) context raw res w,
        validate_params (validate_config (config route)) = paramSchema →
        match typed_params raw with
        | Some p =>
            validate paramSchema raw = true ∧
            serve route context raw res w
            = (r ← handler route context {| params := p |} res; mret (Handled r)) w
        | None =>
            validate paramSchema raw = false ∧
            serve route context raw res w = (Return Rejected, w)
        end).
Proof.
  split; [|split].
  - intros. eexists. split; [reflexivity|]. cbn. auto.
  - intros raw. split.
    + destruct raw as [| | | | |fields]; cbn; try discriminate.
      destruct (get_prop "id" fields) as [[| | | |s|]|] eqn:Hid; cbn; try discriminate.
      intros _. eauto.
    + intros (fields & s & -> & Hid). cbn. rewrite Hid. reflexivity.
  - intros route context raw res w Hschema. unfold serve. rewrite Hschema.
    destruct raw as [| | | | |fields]; cbn; auto.
    destruct (get_prop "id" fields) as [[| | | |s|]|]; cbn; auto.
Qed.

(** C4.  The handler answers one error itself: HTTP 400, and only when the
    alerting context is missing; its only other answer is the 204.  A
    failing license verification, a rejected context promise, a failing
    [getRulesClient] and a failing [delete] are thrown on unchanged, and
    [handleLegacyErrors], which wraps the handler in the registered route,
    turns the thrown error into the route's answer. *)
Theorem only_missing_context_is_answered_explicitly
    licenseState usageCounter context req w :
  let args := {| id := id (params req) |} in
  let '(r, w') :=
    deleteAlertHandler licenseState usageCounter context req kibanaResponseFactory w in
  match r with
  | Return response =>
      verifyApiAccess licenseState = Return () ∧
      ((alerting context = None ∧
        response = {| status := 400;
                      payload := Some "RouteHandlerContext is not registered for alerting" |})
       ∨ (∃ api rulesClient,
             alerting context = Some (Return api) ∧
             getRulesClient api () = Return rulesClient ∧
             delete rulesClient args = Return () ∧
             response = {| status := 204; payload := None |}))
  | Throw e =>
      verifyApiAccess licenseState = Throw e
      ∨ (verifyApiAccess licenseState = Return () ∧
         (alerting context = Some (Throw e)
          ∨ ∃ api, alerting context = Some (Return api) ∧
              (getRulesClient api () = Throw e
               ∨ ∃ rulesClient, getRulesClient api () = Return rulesClient ∧
                   delete rulesClient args = Throw e)))
  end
  ∧ handleLegacyErrors (deleteAlertHandler licenseState usageCounter)
      context req kibanaResponseFactory w
    = (match r with
       | Return response => Return response
       | Throw e => legacyErrorResponse e
       end, w')
  ∧ ∀ router isServerless,
      handler <$> last (routes (deleteAlertRoute router licenseState usageCounter isServerless))
      = Some (handleLegacyErrors (deleteAlertHandler licenseState usageCounter)).
Proof.
  intros args. unfold handleLegacyErrors, try_catch.
  rewrite deleteAlertHandler_paths.
  destruct (verifyApiAccess licenseState) as [[]|e] eqn:Hlicense;
    [|cbn; split; [auto|split; [reflexivity|]]].
  - destruct (alerting context) as [[api|e]|] eqn:Hcontext; cbn.
    + destruct (getRulesClient api ()) as [rulesClient|e] eqn:Hclient; cbn.
      * fold args. destruct (delete rulesClient args) as [[]|e] eqn:Hdelete; cbn.
        -- split; [split; [reflexivity|right; eauto 10]|]. split; [reflexivity|].
           intros. unfold deleteAlertRoute, router_delete; cbn. rewrite last_snoc. reflexivity.
        -- split; [right; split; [reflexivity|right; eauto 10]|]. split; [reflexivity|].
           intros. unfold deleteAlertRoute, router_delete; cbn. rewrite last_snoc. reflexivity.
      * split; [right; split; [reflexivity|right; eauto 10]|]. split; [reflexivity|].
        intros. unfold deleteAlertRoute, router_delete; cbn. rewrite last_snoc. reflexivity.
    + split; [right; split; [reflexivity|left; reflexivity]|]. split; [reflexivity|].
      intros. unfold deleteAlertRoute, router_delete; cbn. rewrite last_snoc. reflexivity.
    + split; [split; [reflexivity|left; auto]|]. split; [reflexivity|].
      intros. unfold deleteAlertRoute, router_delete; cbn. rewrite last_snoc. reflexivity.
  - intros. unfold deleteAlertRoute, router_delete; cbn. rewrite last_snoc. reflexivity.
Qed.

(** C10.  [trackLegacyRouteUsage('delete', usageCounter)] is called only
    after [verifyApiAccess] has returned and with the alerting context
    present, and then it is the call right after the verification.  When
    the context is missing (the 400 path) and when license verification
    throws, it is not called and the usage counters are unchanged. *)
Theorem usage_tracked_only_after_both_checks
    licenseState usageCounter context req res w :
  let '(r, w') := deleteAlertHandler licenseState usageCounter context req res w in
  ∃ new, calls w' = calls w ++ new
    ∧ (∀ route, CallTrackLegacyRouteUsage route ∈ new →
         route = "delete"
         ∧ verifyApiAccess licenseState = Return ()
         ∧ is_Some (alerting context)
         ∧ usage w' = trackLegacyRouteUsage "delete" usageCounter (usage w)
         ∧ ∃ rest, new = CallVerifyApiAccess :: CallTrackLegacyRouteUsage "delete" :: rest)
    ∧ (alerting context = None →
         usage w' = usage w ∧ ∀ route, CallTrackLegacyRouteUsage route ∉ new)
    ∧ (∀ e, verifyApiAccess licenseState = Throw e →
         usage w' = usage w ∧ ∀ route, CallTrackLegacyRouteUsage route ∉ new).
Proof.
  rewrite deleteAlertHandler_paths.
  destruct (verifyApiAccess licenseState) as [[]|e] eqn:Hlicense.
  - destruct (alerting context) as [[api|e]|] eqn:Hcontext; cbn.
    + destruct (getRulesClient api ()) as [rulesClient|e] eqn:Hclient; cbn;
        (eexists; split; [reflexivity|]); (split; [|split; [discriminate|discriminate]]);
        intros route Hin; cbn in Hin;
        repeat (apply elem_of_cons in Hin as [Hin|Hin]; [try discriminate|]);
        try (by apply elem_of_nil in Hin);
        injection Hin as ->; eauto 10.
    + eexists; split; [reflexivity|]. split; [|split; [discriminate|discriminate]].
      intros route Hin.
      repeat (apply elem_of_cons in Hin as [Hin|Hin]; [try discriminate|]);
        try (by apply elem_of_nil in Hin).
      injection Hin as ->; eauto 10.
    + eexists; split; [reflexivity|]. split; [|split; [|discriminate]].
      * intros route Hin. apply list_elem_of_singleton in Hin. discriminate.
      * intros _. split; [reflexivity|]. intros route Hin.
        apply list_elem_of_singleton in Hin. discriminate.
  - cbn. eexists; split; [reflexivity|]. split; [|split].
    + intros route Hin. apply list_elem_of_singleton in Hin. discriminate.
    + intros _. split; [reflexivity|]. intros route Hin.
      apply list_elem_of_singleton in Hin. discriminate.
    + intros e' _. split; [reflexivity|]. intros route Hin.
      apply list_elem_of_singleton in Hin. discriminate.
Qed.

End Route.

Import LegacyDeleteDemo.

(** C1 as stated fails: the alerting context is available and its rules
    client would delete the rule, but the license does not allow the API:
    the handler stops at [verifyApiAccess], calls no [delete] and returns
    no 204.  Likewise when the available context cannot hand out a rules
    client. *)
Lemma delete_not_forwarded_without_license :
  is_Some (alerting registeredContext)
  ∧ delete rulesClient {| id := id (params request) |} = Return ()
  ∧ deleteAlertHandler false (Some ()) registeredContext request kibanaResponseFactory idle
    = (Throw "license does not allow alerting",
       {| usage := 0; calls := [CallVerifyApiAccess] |})
  ∧ is_Some (alerting brokenContext)
  ∧ deleteAlertHandler true (Some ()) brokenContext request kibanaResponseFactory idle
    = (Throw "no rules client",
       {| usage := 1;
          calls := [CallVerifyApiAccess; CallTrackLegacyRouteUsage "delete";
                    CallGetRulesClient] |}).
Proof.
  split; [eexists; reflexivity|]. split; [reflexivity|]. split; [reflexivity|].
  split; [eexists; reflexivity|]. reflexivity.
Qed.

Lemma delete_forwards_id_witness :
  verifyApiAccess true = Return ()
  ∧ let '(r, w') :=
      deleteAlertHandler true (Some ()) registeredContext request kibanaResponseFactory idle in
    calls w' = [CallVerifyApiAccess; CallTrackLegacyRouteUsage "delete";
                CallGetRulesClient; CallRulesClientDelete {| id := "rule-1" |}]
    ∧ (delete rulesClient {| id := "rule-1" |} = Return () →
       r = Return {| status := 204; payload := None |})
    ∧ (∀ e, delete rulesClient {| id := "rule-1" |} = Throw e → r = Throw e).
Proof.
  split; [reflexivity|].
  exact (delete_forwards_id_when_licensed true (Some ()) registeredContext request idle
           _ rulesClient eq_refl eq_refl eq_refl).
Defined.

(** C2 as stated fails: the alerting context is unavailable, but the
    license does not allow the API: the handler throws before it looks at
    the context, and the route answers what [handleLegacyErrors] makes of
    the error (here 403), not the 400. *)
Lemma missing_context_without_license_is_not_400 :
  alerting unregisteredContext = None
  ∧ deleteAlertHandler false None unregisteredContext request kibanaResponseFactory idle
    = (Throw "license does not allow alerting",
       {| usage := 0; calls := [CallVerifyApiAccess] |})
  ∧ handleLegacyErrors (deleteAlertHandler false None)
      unregisteredContext request kibanaResponseFactory idle
    = (Return {| status := 403; payload := Some "license does not allow alerting" |},
       {| usage := 0; calls := [CallVerifyApiAccess] |}).
Proof. split; [reflexivity|]. split; reflexivity. Qed.

Lemma missing_context_is_400_witness :
  alerting unregisteredContext = None
  ∧ let '(r, w') :=
      deleteAlertHandler true (Some ()) unregisteredContext request kibanaResponseFactory idle in
    calls w' = [CallVerifyApiAccess]
    ∧ (verifyApiAccess true = Return () →
       r = Return {| status := 400;
                     payload := Some "RouteHandlerContext is not registered for alerting" |})
    ∧ (∀ e, verifyApiAccess true = Throw e → r = Throw e).
Proof.
  split; [reflexivity|].
  exact (missing_context_is_400_without_delete true (Some ()) unregisteredContext request idle
           eq_refl).
Defined.

End LegacyDeleteFacts.


(** ** The custom query field of the rule-definition step *)

Module StepDefineRuleFacts.
Import StepDefineRule.

Section Form.
Context {Filter : Type} `{EqDecision Filter}.

Implicit Types (c : Component Filter) (field : FieldHook Filter).
Implicit Types (v : FieldValueQueryBar Filter) (ruleType : RuleType.t).
Implicit Types (value : option (FieldValueQueryBar Filter)).

Abbreviation normal := (forNormalRules (Filter:=Filter) defaultCustomQuery).
Abbreviation threat := (forThreatMatchRules (Filter:=Filter) defaultCustomQuery).

Lemma hasEsqlLanguage_normal : hasEsqlLanguage (Some normal) = false.
Proof. reflexivity. Qed.

Lemma hasEsqlLanguage_threat : hasEsqlLanguage (Some threat) = false.
Proof. reflexivity. Qed.

Lemma isEqual_true value v : isEqual value v = true ↔ value = Some v.
Proof. unfold isEqual. apply bool_decide_eq_true. Qed.

Lemma isEqual_refl v : isEqual (Some v) v = true.
Proof. by apply isEqual_true. Qed.

Lemma isEqual_normal_threat : isEqual (Some normal) threat = false.
Proof. apply bool_decide_eq_false. intros [= Heq]. Qed.

Lemma isEqual_threat_normal : isEqual (Some threat) normal = false.
Proof. apply bool_decide_eq_false. intros [= Heq]. Qed.

(** A rule type is threat_match, esql, or neither. *)
Lemma rule_kind ruleType :
  ruleType = RuleType.threat_match ∨ ruleType = RuleType.esql
  ∨ (isThreatMatchRule (Some ruleType) = false ∧ isEsqlRule (Some ruleType) = false
     ∧ defaultFor ruleType = normal).
Proof. destruct ruleType; auto. Qed.

Lemma previous_kind (previous : option RuleType.t) :
  previous = None ∨ previous = Some RuleType.threat_match ∨ previous = Some RuleType.esql
  ∨ (isThreatMatchRule previous = false ∧ isEsqlRule previous = false
     ∧ bool_decide (is_Some previous) = true).
Proof. destruct previous as [[]|]; auto 10. Qed.

Lemma isThreatMatchRule_threat : isThreatMatchRule (Some RuleType.threat_match) = true.
Proof. reflexivity. Qed.
Lemma isThreatMatchRule_esql : isThreatMatchRule (Some RuleType.esql) = false.
Proof. reflexivity. Qed.
Lemma isThreatMatchRule_None : isThreatMatchRule None = false.
Proof. reflexivity. Qed.
Lemma isEsqlRule_threat : isEsqlRule (Some RuleType.threat_match) = false.
Proof. reflexivity. Qed.
Lemma isEsqlRule_esql : isEsqlRule (Some RuleType.esql) = true.
Proof. reflexivity. Qed.
Lemma isEsqlRule_None : isEsqlRule None = false.
Proof. reflexivity. Qed.
Lemma is_Some_Some_bool {A} (x : A) : bool_decide (is_Some (Some x)) = true.
Proof. apply bool_decide_eq_true. eauto. Qed.
Lemma is_Some_None_bool {A} : bool_decide (is_Some (@None A)) = false.
Proof. apply bool_decide_eq_false. intros [? [=]]. Qed.

Ltac kinds ruleType previous :=
  destruct (rule_kind ruleType) as [->|[->|(? & ? & ?Hdefault)]];
  [| |try rewrite Hdefault in *; clear Hdefault];
  destruct (previous_kind previous) as [->|[->|[->|(? & ? & ?)]]].

Ltac bools :=
  repeat match goal with
  | H : _ = true |- _ => rewrite H in *; clear H
  | H : _ = false |- _ => rewrite H in *; clear H
  end;
  rewrite ?isThreatMatchRule_threat, ?isThreatMatchRule_esql, ?isThreatMatchRule_None,
    ?isEsqlRule_threat, ?isEsqlRule_esql, ?isEsqlRule_None,
    ?is_Some_Some_bool, ?is_Some_None_bool.

#[local] Arguments hasEsqlLanguage : simpl never.
#[local] Arguments isEqual : simpl never.
#[local] Arguments defaultCustomQuery : simpl never.
#[local] Arguments isThreatMatchRule : simpl never.
#[local] Arguments isEsqlRule : simpl never.

Ltac effects :=
  unfold render, snap_render, threatMatchQueryEffect, esqlQueryEffect,
    snap_threatMatchQueryEffect, snap_esqlQueryEffect, queryBarValue,
    with_queryBar, with_esqlQueryRef, reset; cbn.

Ltac values :=
  repeat (first
    [ rewrite hasEsqlLanguage_normal
    | rewrite hasEsqlLanguage_threat
    | rewrite isEqual_refl
    | rewrite isEqual_normal_threat
    | rewrite isEqual_threat_normal
    | match goal with
      | |- context [isEqual ?x ?d] =>
          let Heq := fresh "Heq" in
          destruct (isEqual x d) eqn:Heq; [apply isEqual_true in Heq; simplify_eq|]
      | |- context [hasEsqlLanguage ?x] =>
          let Hlang := fresh "Hlang" in destruct (hasEsqlLanguage x) eqn:Hlang
      | |- context [match ?x with Some _ => _ | None => _ end] => is_var x; destruct x
      end ]; cbn).

(** Whether the second effect sees the value the first one has reset, or
    the value the field was rendered with, the render ends the same. *)
Lemma snap_render_eq_render c ruleType : snap_render ruleType c = render ruleType c.
Proof.
  destruct c as [[[value]|] ref previous]; [|reflexivity].
  kinds ruleType previous; effects; bools; cbn; values.
  all: try reflexivity.
Qed.


(** A render with the rule type of the render before changes nothing. *)
Lemma render_same_type c ruleType :
  previousRef c = Some ruleType → render ruleType c = c.
Proof.
  destruct c as [[[value]|] ref previous]; cbn; intros ->; [|reflexivity].
  destruct (rule_kind ruleType) as [->|[->|(? & ? & _)]];
    effects; bools; cbn; values; try done.
Qed.



(** C5 (amended).  When the rule type switches into or out of threat_match,
    the new type is not ES|QL, and the custom query still deep-equals the
    default of the previous rule type, the field is reset to the default of
    the new rule type: to the threat-match default, whose query is '*:*',
    on a switch to threat_match, and to the normal-rule default, whose query
    is '', on a switch from threat_match to another type. *)
Theorem custom_query_reset_when_still_default c field ruleType :
  queryBar c = Some field →
  isThreatMatchRule (Some ruleType) ≠ isThreatMatchRule (previousRef c) →
  ruleType ≠ RuleType.esql →
  value field = Some (previousDefault (previousRef c)) →
  queryBarValue (render ruleType c) = Some (defaultFor ruleType)
  ∧ Query.query <$> query (defaultFor RuleType.threat_match : FieldValueQueryBar Filter) = Some "*:*"
  ∧ ∀ other, other ≠ RuleType.threat_match →
      Query.query <$> query (defaultFor other : FieldValueQueryBar Filter) = Some "".
Proof.
  intros Hfield Hswitch Hesql Hvalue.
  split; [|split; [reflexivity|by intros []]].
  destruct c as [[[value]|] ref previous]; simplify_eq/=.
  unfold previousDefault in *.
  kinds ruleType previous; try done; effects; bools; cbn; values; try done.
Qed.








End Form.

Import StepDefineRuleDemo.

(** C5 as stated fails: the user has typed a custom query under the rule
    type query; on the switch to threat_match the field keeps it and is not
    reset to the threat-match default.  And on a switch from threat_match to
    ES|QL the field takes the stored ES|QL query, not the normal-rule
    default. *)
Lemma custom_query_kept_on_switch_to_threat_match :
  previousRef (mounted userQuery RuleType.query) = Some RuleType.query
  ∧ queryBarValue (mounted userQuery RuleType.query) = Some userQuery
  ∧ queryBarValue (render RuleType.threat_match (mounted userQuery RuleType.query))
    = Some userQuery
  ∧ userQuery ≠ forThreatMatchRules defaultCustomQuery
  ∧ queryBarValue (render RuleType.esql returningToEsql) = Some userEsqlQuery
  ∧ userEsqlQuery ≠ forNormalRules defaultCustomQuery.
Proof. repeat split; try reflexivity; discriminate. Qed.

Lemma custom_query_reset_witness :
  queryBarValue
    (render RuleType.threat_match (mounted (forNormalRules defaultCustomQuery) RuleType.query))
  = Some (forThreatMatchRules (Filter:=string) defaultCustomQuery).
Proof.
  apply (custom_query_reset_when_still_default
           (mounted (forNormalRules defaultCustomQuery) RuleType.query)
           {| value := Some (forNormalRules defaultCustomQuery) |}
           RuleType.threat_match);
    [reflexivity|discriminate|discriminate|reflexivity].
Defined.



End StepDefineRuleFacts.


(** ** The dashboard acceptance scripts *)

Module FtrFacts.
Import Ftr.

(** The phrase is found at the start of any text that begins with it. *)
Lemma starts_with_app (needle rest : string) : starts_with needle (needle +:+ rest) = true.
Proof.
  induction needle as [|a needle IH]; [reflexivity|].
  change (String a needle +:+ rest) with (String a (needle +:+ rest)).
  cbn [starts_with]. rewrite bool_decide_eq_true_2 by reflexivity. exact IH.
Qed.

Lemma includes_prefix (needle rest : string) : includes (needle +:+ rest) needle = true.
Proof.
  destruct (needle +:+ rest) eqn:Heq; cbn; rewrite <- Heq, starts_with_app; reflexivity.
Qed.

Lemma starts_with_spec (needle hay : string) :
  starts_with needle hay = true ↔ ∃ post, hay = needle +:+ post.
Proof.
  revert hay. induction needle as [|a needle IH]; intros hay.
  - split; [intros _; exists hay; reflexivity|reflexivity].
  - destruct hay as [|b hay]; cbn [starts_with].
    + split; [discriminate|intros [post [=]]].
    + rewrite andb_true_iff, bool_decide_eq_true, IH. split.
      * intros [-> [post ->]]. exists post. reflexivity.
      * intros [post [= -> ->]]. eauto.
Qed.

(** [includes] finds the needle exactly when the hay holds it somewhere. *)
Lemma includes_spec (hay needle : string) :
  includes hay needle = true ↔ ∃ pre post, hay = pre +:+ needle +:+ post.
Proof.
  induction hay as [|b hay IH].
  - cbn [includes]. rewrite orb_false_r, starts_with_spec. split.
    + intros [post ->]. exists "", post. reflexivity.
    + intros (pre & post & Heq). destruct pre; [cbn in Heq; eauto|discriminate].
  - cbn [includes]. rewrite orb_true_iff, starts_with_spec, IH. split.
    + intros [[post ->]|(pre & post & ->)].
      * exists "", post. reflexivity.
      * exists (String b pre), post. reflexivity.
    + intros (pre & post & Heq). destruct pre as [|a pre].
      * left. exists post. exact Heq.
      * right. injection Heq as -> ->. eauto.
Qed.



Lemma bind_Return {W A B} (m : Async string W A) (k : A → Async string W B) w a w' :
  m w = (Return a, w') → (m ≫= k) w = k a w'.
Proof. intros Hm. unfold mbind, async_bind. by rewrite Hm. Qed.

End FtrFacts.

Module EsqlIntervalControlFacts.
Import Ftr FtrFacts EsqlIntervalControl.



End EsqlIntervalControlFacts.

Module DashboardErrorHandlingFacts.
Import Ftr FtrFacts DashboardErrorHandling.

Section App.
Variable missingDataViewDetail : string → string.

Abbreviation phrase := "Could not locate that data view".

(** What a panel renders to: an error exactly when its data view is
    missing, and the error shows the phrase. *)
Lemma renderPanel_error (so : SavedObjects) (p : Panel) :
  testSubj (renderPanel missingDataViewDetail so p) = "embeddableError"
  ↔ dataViewId p ∉ dataViews so.
Proof.
  unfold renderPanel. destruct (decide (dataViewId p ∈ dataViews so)); cbn; split;
    done.
Qed.

Lemma renderPanel_error_text (so : SavedObjects) (p : Panel) :
  testSubj (renderPanel missingDataViewDetail so p) = "embeddableError" →
  includes (visibleText (renderPanel missingDataViewDetail so p)) phrase = true.
Proof.
  unfold renderPanel. destruct (decide (dataViewId p ∈ dataViews so)); cbn [testSubj visibleText];
    [discriminate|intros _]. apply includes_prefix.
Qed.

Lemma find_error_element (so : SavedObjects) (ps : list Panel) (p : Panel) :
  p ∈ ps → dataViewId p ∉ dataViews so →
  ∃ e, List.find (λ e, bool_decide (testSubj e = "embeddableError"))
         (renderPanel missingDataViewDetail so <$> ps) = Some e
       ∧ testSubj e = "embeddableError"
       ∧ includes (visibleText e) phrase = true.
Proof.
  intros Hin Hmissing. induction Hin as [p ps|p q ps Hin IH].
  - exists (renderPanel missingDataViewDetail so p).
    assert (testSubj (renderPanel missingDataViewDetail so p) = "embeddableError")
      as Herror by (by apply renderPanel_error).
    cbn [fmap list_fmap List.find]. rewrite bool_decide_eq_true_2 by done.
    auto using renderPanel_error_text.
  - cbn [fmap list_fmap List.find].
    destruct (bool_decide (testSubj (renderPanel missingDataViewDetail so q) = "embeddableError"))
      eqn:Hq.
    + apply bool_decide_eq_true in Hq. eauto using renderPanel_error_text.
    + exact (IH Hmissing).
Qed.

(** C6.  Loading a saved dashboard one of whose panels references a data
    view the server does not hold puts on the page an element under the
    test subject embeddableError whose visible text contains 'Could not
    locate that data view'; for the dashboard the script loads, the script
    passes. *)
Theorem missing_data_view_error_is_shown (b : Browser) (title : string)
    (d : SavedDashboard) (p : Panel) :
  dashboards (savedObjects b) !! title = Some d →
  p ∈ panels d →
  dataViewId p ∉ dataViews (savedObjects b) →
  let '(r, b') := dashboard_loadSavedDashboard missingDataViewDetail title b in
  r = Return ()
  ∧ (∃ e, e ∈ page b' ∧ testSubj e = "embeddableError"
          ∧ includes (visibleText e) "Could not locate that data view" = true)
  ∧ (title = "dashboard with missing index pattern" →
     ∃ b'', shows_the_missing_data_view_error_message missingDataViewDetail b = (Return (), b'')).
Proof.
  intros Hdashboard Hin Hmissing.
  destruct (find_error_element (savedObjects b) (panels d) p Hin Hmissing)
    as (e & Hfind & Hsubj & Htext).
  unfold dashboard_loadSavedDashboard. rewrite Hdashboard.
  split; [reflexivity|]. split.
  - exists e. split; [|done]. cbn [page].
    apply list_elem_of_In. eapply find_some. exact Hfind.
  - intros ->. unfold shows_the_missing_data_view_error_message.
    eexists.
    etrans; [apply bind_Return; reflexivity|cbv beta].
    etrans; [apply bind_Return; unfold dashboard_loadSavedDashboard; cbn [savedObjects];
             rewrite Hdashboard; reflexivity|cbv beta].
    etrans; [apply bind_Return; reflexivity|cbv beta].
    etrans; [apply bind_Return; unfold testSubjects_find; cbn [page savedObjects];
             rewrite Hfind; reflexivity|cbv beta].
    etrans; [apply bind_Return; reflexivity|cbv beta].
    unfold expect_to_contain. rewrite Htext. reflexivity.
Qed.

End App.

Import DashboardErrorHandlingDemo.

Lemma missing_data_view_error_witness :
  let '(r, b') :=
    dashboard_loadSavedDashboard missingDataViewDetail
      "dashboard with missing index pattern" browser in
  r = Return ()
  ∧ (∃ e, e ∈ page b' ∧ testSubj e = "embeddableError"
          ∧ includes (visibleText e) "Could not locate that data view" = true)
  ∧ ("dashboard with missing index pattern" = "dashboard with missing index pattern" →
     ∃ b'', shows_the_missing_data_view_error_message missingDataViewDetail browser
            = (Return (), b'')).
Proof.
  apply (missing_data_view_error_is_shown missingDataViewDetail browser
           "dashboard with missing index pattern"
           {| panels := [areaPanel; orphanPanel] |} orphanPanel).
  - reflexivity.
  - apply list_elem_of_further, list_elem_of_here.
  - cbn. intros Hin. apply elem_of_singleton in Hin. discriminate.
Defined.

End DashboardErrorHandlingFacts.


(** * Further properties of the code *)

(** ** The handler of the legacy delete route: order of calls, usage
    tracking *)

Module LegacyDeleteCoverage.
Import LegacyDelete LegacyDeleteFacts.

Section Route.
Context {Err ILicenseState UsageCounter UsageState : Type}.
Context `{!@Imports Err ILicenseState UsageCounter UsageState}.

Implicit Types (licenseState : ILicenseState) (usageCounter : option UsageCounter).
Implicit Types (context : @RequestHandlerContext Err) (req : KibanaRequest).
Implicit Types (res : KibanaResponseFactory) (w : @World UsageState).

(** No call of the short lists the handler can have made is the one
    looked for. *)
Ltac not_among Hin :=
  repeat (apply elem_of_cons in Hin as [Hin|Hin]; [discriminate|]);
  by apply elem_of_nil in Hin.

(** X1.  The calls of one request are a non-empty prefix of: verify the
    license, track the usage, get the rules client, delete; so [delete] is
    called at most once, last, with the id of this request, and never
    before the three calls ahead of it.  With the alerting context
    registered, a returned response has made them all. *)
Theorem handler_calls_are_an_ordered_prefix
    licenseState usageCounter context req res w :
  let sequence := [CallVerifyApiAccess; CallTrackLegacyRouteUsage "delete";
                   CallGetRulesClient;
                   CallRulesClientDelete {| id := id (params req) |}] in
  let '(r, w') := deleteAlertHandler licenseState usageCounter context req res w in
  ∃ new, calls w' = calls w ++ new
    ∧ new `prefix_of` sequence
    ∧ new ≠ []
    ∧ (∀ args, CallRulesClientDelete args ∈ new → new = sequence)
    ∧ (is_Some (alerting context) → ∀ response, r = Return response → new = sequence).
Proof.
  intros sequence. rewrite deleteAlertHandler_paths.
  destruct (verifyApiAccess licenseState) as [[]|e].
  - destruct (alerting context) as [[api|e]|] eqn:Hcontext; cbn.
    + destruct (getRulesClient api ()) as [rulesClient|e]; cbn.
      * exists sequence. split; [reflexivity|]. split; [reflexivity|].
        split; [discriminate|]. auto.
      * eexists. split; [reflexivity|].
        split; [by eexists [_]|]. split; [discriminate|]. split.
        -- intros args Hin. not_among Hin.
        -- intros _ response [=].
    + eexists. split; [reflexivity|].
      split; [by eexists [_; _]|]. split; [discriminate|]. split.
      * intros args Hin. not_among Hin.
      * intros _ response [=].
    + eexists. split; [reflexivity|].
      split; [by eexists [_; _; _]|]. split; [discriminate|]. split.
      * intros args Hin. not_among Hin.
      * intros [? [=]].
  - cbn. eexists. split; [reflexivity|].
    split; [by eexists [_; _; _]|]. split; [discriminate|]. split.
    + intros args Hin. not_among Hin.
    + intros _ response [=].
Qed.

(** X2.  A request that passes the license check with the alerting context
    registered is counted once, whatever happens next: the usage counters
    are those [trackLegacyRouteUsage('delete', usageCounter)] leaves, also
    when the context promise rejects, no rules client is handed out or the
    deletion fails. *)
Theorem usage_is_tracked_even_when_delete_fails
    licenseState usageCounter context req res w :
  verifyApiAccess licenseState = Return () →
  is_Some (alerting context) →
  let '(r, w') := deleteAlertHandler licenseState usageCounter context req res w in
  usage w' = trackLegacyRouteUsage "delete" usageCounter (usage w)
  ∧ ∃ rest, calls w' = calls w ++ CallVerifyApiAccess
                         :: CallTrackLegacyRouteUsage "delete" :: rest
      ∧ ∀ route, CallTrackLegacyRouteUsage route ∉ rest.
Proof.
  intros Hlicense [alertingPromise Hcontext].
  rewrite deleteAlertHandler_paths, Hlicense, Hcontext.
  destruct alertingPromise as [api|e]; cbn.
  - destruct (getRulesClient api ()) as [rulesClient|e]; cbn.
    + split; [reflexivity|]. eexists. split; [reflexivity|].
      intros route Hin. not_among Hin.
    + split; [reflexivity|]. eexists. split; [reflexivity|].
      intros route Hin. not_among Hin.
  - split; [reflexivity|]. eexists. split; [reflexivity|].
    intros route Hin. not_among Hin.
Qed.

(** X3.  The usage counter has no say in the answer: with another usage
    counter (or none) the handler returns or throws the same and makes the
    same calls. *)
Theorem usage_counter_does_not_change_the_answer
    licenseState usageCounter usageCounter' context req res w :
  let '(r, w1) := deleteAlertHandler licenseState usageCounter context req res w in
  let '(r', w2) := deleteAlertHandler licenseState usageCounter' context req res w in
  r = r' ∧ calls w1 = calls w2.
Proof.
  rewrite !deleteAlertHandler_paths.
  destruct (verifyApiAccess licenseState) as [[]|e]; [|done].
  destruct (alerting context) as [[api|e]|]; cbn; [|done|done].
  destruct (getRulesClient api ()) as [rulesClient|e]; cbn; done.
Qed.

End Route.

Import LegacyDeleteDemo.

Lemma usage_is_tracked_even_when_delete_fails_witness :
  verifyApiAccess true = Return () ∧ is_Some (alerting brokenContext)
  ∧ let '(r, w') :=
      deleteAlertHandler true (Some ()) brokenContext request kibanaResponseFactory idle in
    usage w' = 1
    ∧ ∃ rest, calls w' = CallVerifyApiAccess :: CallTrackLegacyRouteUsage "delete" :: rest
        ∧ ∀ route, CallTrackLegacyRouteUsage route ∉ rest.
Proof.
  split; [reflexivity|]. split; [eexists; reflexivity|].
  exact (usage_is_tracked_even_when_delete_fails true (Some ()) brokenContext request
           kibanaResponseFactory idle eq_refl (ex_intro _ _ eq_refl)).
Defined.

End LegacyDeleteCoverage.

(** ** The two effects on the custom query: renders, first render, round
    trips *)

Module StepDefineRuleCoverage.
Import StepDefineRule StepDefineRuleFields.

Section Form.
Context {Filter : Type} `{EqDecision Filter}.

Implicit Types (c : Component Filter) (v : FieldValueQueryBar Filter).
Implicit Types (val ref : option (FieldValueQueryBar Filter)).
Implicit Types (ruleType : RuleType.t) (prev : option RuleType.t).

Lemma isThreatMatchRule_match prev :
  isThreatMatchRule prev = match prev with Some RuleType.threat_match => true | _ => false end.
Proof. destruct prev as [[]|]; reflexivity. Qed.

Lemma isEsqlRule_match prev :
  isEsqlRule prev = match prev with Some RuleType.esql => true | _ => false end.
Proof. destruct prev as [[]|]; reflexivity. Qed.

Lemma bool_decide_is_Some_match {A} (p : option A) :
  bool_decide (is_Some p) = match p with Some _ => true | None => false end.
Proof.
  destruct p; [apply bool_decide_eq_true; eauto|].
  apply bool_decide_eq_false. intros [? [=]].
Qed.

Lemma isEqual_Some_iff val v : isEqual val v = true ↔ val = Some v.
Proof. apply bool_decide_eq_true. Qed.

Lemma isEqual_differs_iff val v : isEqual val v = false ↔ val ≠ Some v.
Proof. apply bool_decide_eq_false. Qed.


Lemma hasEsqlLanguage_of_forNormalRules :
  hasEsqlLanguage (Some (forNormalRules (Filter:=Filter) defaultCustomQuery)) = false.
Proof. reflexivity. Qed.

Lemma hasEsqlLanguage_of_forThreatMatchRules :
  hasEsqlLanguage (Some (forThreatMatchRules (Filter:=Filter) defaultCustomQuery)) = false.
Proof. reflexivity. Qed.

Lemma hasEsqlLanguage_of_forEsqlRules :
  hasEsqlLanguage (Some (forEsqlRules (Filter:=Filter) defaultCustomQuery)) = true.
Proof. reflexivity. Qed.

Lemma hasEsqlLanguage_of_None : hasEsqlLanguage (Filter:=Filter) None = false.
Proof. reflexivity. Qed.

(** Reduce the projections of the records, nothing else. *)
Ltac fields :=
  cbn [queryBar value esqlQueryRef previousRef andb negb mbind option_bind
       default fmap option_fmap option_map].

Ltac open_effects :=
  unfold render, threatMatchQueryEffect, esqlQueryEffect, queryBarValue, userEdit,
    setValue, with_queryBar, with_esqlQueryRef, reset in *;
  rewrite ?isThreatMatchRule_match, ?isEsqlRule_match, ?bool_decide_is_Some_match in *.

(** Case on what the effects ask of the value of the field. *)
Ltac on_value :=
  repeat first
    [ done
    | rewrite hasEsqlLanguage_of_forNormalRules
    | rewrite hasEsqlLanguage_of_forThreatMatchRules
    | rewrite hasEsqlLanguage_of_None
    | match goal with
      | |- context [isEqual ?a ?b] =>
          let Heq := fresh "Heq" in
          destruct (isEqual a b) eqn:Heq;
            [apply isEqual_Some_iff in Heq|apply isEqual_differs_iff in Heq]
      | |- context [hasEsqlLanguage ?x] => destruct (hasEsqlLanguage x) eqn:?
      | |- context [match ?x with Some _ => _ | None => _ end] => is_var x; destruct x
      end
    | progress fields ].



(** X4.  A render with the rule type of the render before leaves the
    query bar and the saved ES|QL query alone, so the render that follows
    every switch (when [usePrevious] has caught up) resets nothing a second
    time, whatever the user has typed in between. *)
Theorem rerender_with_same_rule_type_changes_nothing c ruleType :
  (previousRef c = Some ruleType → render ruleType c = c)
  ∧ render ruleType (render ruleType c) = render ruleType c
  ∧ ∀ v, render ruleType (userEdit v (render ruleType c)) = userEdit v (render ruleType c).
Proof.
  assert (∀ c', previousRef c' = Some ruleType → render ruleType c' = c') as Hsame.
  { intros [[[val]|] ref prev]; cbn [previousRef]; intros ->; [|reflexivity].
    open_effects; destruct ruleType; fields; reflexivity. }
  split; [apply Hsame|]. split; [apply Hsame; reflexivity|].
  intros v. apply Hsame. unfold userEdit.
  destruct (queryBar (render ruleType c)); reflexivity.
Qed.

(** X5.  The first render of the step (no previous rule type) keeps what
    the form was loaded with: for every rule type but threat_match the
    query and the saved ES|QL query are untouched, so a stored ES|QL rule
    opens with its own query; for threat_match only a query still equal to
    the normal default is replaced by the threat-match default. *)
Theorem first_render_keeps_loaded_query c ruleType :
  previousRef c = None →
  esqlQueryRef (render ruleType c) = esqlQueryRef c
  ∧ queryBarValue (render ruleType c) =
      if bool_decide (ruleType = RuleType.threat_match
                      ∧ queryBarValue c = Some (forNormalRules defaultCustomQuery))
      then Some (forThreatMatchRules defaultCustomQuery)
      else queryBarValue c.
Proof.
  destruct c as [[[val]|] ref prev]; cbn [previousRef]; intros ->.
  - open_effects; destruct ruleType; fields; on_value;
      try (split; [reflexivity|]);
      first [ rewrite bool_decide_eq_false_2 by (intros [? ?]; congruence); done
            | rewrite bool_decide_eq_true_2 by (split; congruence); done ].
  - split; [reflexivity|]. cbn.
    by rewrite bool_decide_eq_false_2 by (intros [? ?]; congruence).
Qed.

(** X6.  Leaving ES|QL never leaves ES|QL text behind: whatever the
    query bar held, after the switch it holds the default of the new rule
    type (the threat-match default for threat_match, the normal default
    for every other type). *)
Theorem leaving_esql_resets_to_the_new_default c ruleType :
  is_Some (queryBar c) →
  previousRef c = Some RuleType.esql →
  ruleType ≠ RuleType.esql →
  queryBarValue (render ruleType c) = Some (defaultFor ruleType).
Proof.
  destruct c as [[[val]|] ref prev]; cbn [previousRef queryBar];
    intros Hmounted -> Hswitch; [|by destruct Hmounted].
  open_effects; destruct ruleType; fields; on_value.
Qed.


(** X8.  The saved ES|QL query changes only on a switch away from ES|QL
    with an ES|QL query in the bar, and then it becomes that query; typing
    into the bar never changes it. *)
Theorem esqlQueryRef_changes_only_on_leaving_esql c (a : Action Filter) :
  esqlQueryRef (step c a) = esqlQueryRef c
  ∨ ∃ ruleType v,
      a = SelectRuleType ruleType
      ∧ ruleType ≠ RuleType.esql
      ∧ previousRef c = Some RuleType.esql
      ∧ queryBarValue c = Some v
      ∧ hasEsqlLanguage (Some v) = true
      ∧ esqlQueryRef (step c a) = Some v.
Proof.
  destruct a as [ruleType|v']; cbn [step].
  - destruct c as [[[val]|] ref prev]; [|left; reflexivity].
    open_effects; destruct ruleType; destruct prev as [[]|]; fields; on_value;
      try (left; reflexivity);
      right; eexists _, _; repeat split; try done.
  - left. unfold userEdit. destruct (queryBar c); reflexivity.
Qed.

Lemma step_keeps_saved_query_esql c (a : Action Filter) :
  saved_query_is_esql c → saved_query_is_esql (step c a).
Proof.
  intros Href v Hv.
  destruct (esqlQueryRef_changes_only_on_leaving_esql c a)
    as [Hsame|(ruleType & v' & _ & _ & _ & _ & Hlang & Hnew)].
  - apply Href. by rewrite <- Hsame.
  - congruence.
Qed.

Lemma run_keeps_saved_query_esql (actions : list (Action Filter)) c :
  saved_query_is_esql c → saved_query_is_esql (run actions c).
Proof.
  revert c. induction actions as [|a actions IH]; intros c Href; [done|].
  cbn. apply IH, step_keeps_saved_query_esql, Href.
Qed.

(** X9.  From a step that has saved no ES|QL query yet, after any sequence
    of rule type selections and edits, a switch to ES|QL from another rule
    type puts an ES|QL query into the bar (the saved one or the ES|QL
    default), never the query of another language that was there. *)
Theorem switch_to_esql_always_gives_an_esql_query
    (actions : list (Action Filter)) c previous :
  esqlQueryRef c = None →
  is_Some (queryBar (run actions c)) →
  previousRef (run actions c) = Some previous →
  previous ≠ RuleType.esql →
  hasEsqlLanguage (queryBarValue (render RuleType.esql (run actions c))) = true.
Proof.
  intros Hnone Hmounted Hprevious Hswitch.
  assert (saved_query_is_esql (run actions c)) as Href.
  { apply run_keeps_saved_query_esql. intros v. rewrite Hnone. discriminate. }
  destruct (run actions c) as [[[val]|] ref prev]; cbn [previousRef queryBar] in *;
    [|by destruct Hmounted].
  subst prev. open_effects; destruct previous; fields; try done.
  all: repeat match goal with
       | |- context [isEqual ?a ?b] => destruct (isEqual a b); fields
       end.
  all: destruct ref as [v|]; fields;
    [apply Href; reflexivity|apply hasEsqlLanguage_of_forEsqlRules].
Qed.


End Form.

Import StepDefineRuleDemo StepDefineRuleFieldsDemo.

Lemma first_render_keeps_loaded_query_witness :
  previousRef (loaded userEsqlQuery) = None
  ∧ esqlQueryRef (render RuleType.esql (loaded userEsqlQuery)) = None
  ∧ queryBarValue (render RuleType.esql (loaded userEsqlQuery)) =
      if bool_decide (RuleType.esql = RuleType.threat_match
                      ∧ queryBarValue (loaded userEsqlQuery)
                        = Some (forNormalRules defaultCustomQuery))
      then Some (forThreatMatchRules defaultCustomQuery)
      else queryBarValue (loaded userEsqlQuery).
Proof.
  split; [reflexivity|].
  exact (first_render_keeps_loaded_query (loaded userEsqlQuery) RuleType.esql eq_refl).
Defined.

Lemma leaving_esql_resets_witness :
  is_Some (queryBar (mounted userEsqlQuery RuleType.esql))
  ∧ queryBarValue (render RuleType.eql (mounted userEsqlQuery RuleType.esql))
    = Some (defaultFor RuleType.eql).
Proof.
  split; [eexists; reflexivity|].
  apply (leaving_esql_resets_to_the_new_default (mounted userEsqlQuery RuleType.esql)
           RuleType.eql); [eexists; reflexivity|reflexivity|discriminate].
Defined.


Lemma switch_to_esql_gives_an_esql_query_witness :
  let actions := [SelectRuleType RuleType.query; EditQuery userQuery] in
  previousRef (run actions (mounted userEsqlQuery RuleType.esql)) = Some RuleType.query
  ∧ hasEsqlLanguage
      (queryBarValue
         (render RuleType.esql (run actions (mounted userEsqlQuery RuleType.esql))))
    = true.
Proof.
  split; [reflexivity|].
  apply (switch_to_esql_always_gives_an_esql_query
           [SelectRuleType RuleType.query; EditQuery userQuery]
           (mounted userEsqlQuery RuleType.esql) RuleType.query);
    [reflexivity|eexists; reflexivity|reflexivity|discriminate].
Defined.


End StepDefineRuleCoverage.

(** ** Alert suppression fields and index patterns *)

Module StepDefineRuleFieldsFacts.
Import StepDefineRule StepDefineRuleFields.

Section Suppression.
Context {Filter FieldSpec : Type}.
Variable isEqlSequenceQuery : option string → bool.
Variables eqlTooltip mlLabel : string.

Implicit Types i : @SuppressionInputs Filter FieldSpec.

(** X11.  Selected suppression fields are never locked: with at least
    one suppression field selected, and for a threshold rule,
    [isSuppressionGroupByDisabled] is false whatever the license, the
    query, the machine learning jobs and the loading of ES|QL fields.  So
    the suppression input of a rule that is not a threshold rule stays
    enabled once a field is selected, and the input of a threshold rule is
    disabled by an insufficient license only. *)
Theorem selected_suppression_fields_stay_enabled i :
  ruleType i = RuleType.threshold
  ∨ (∃ field fields, alertSuppressionFields i = Some (field :: fields)) →
  isSuppressionGroupByDisabled isEqlSequenceQuery i = false
  ∧ alertSuppressionEditDisabled isEqlSequenceQuery i
    = getIsThresholdRule (ruleType i) && negb (isAlertSuppressionLicenseValid i).
Proof.
  intros Hselected.
  assert (isSuppressionGroupByDisabled isEqlSequenceQuery i = false) as Hconstant.
  { unfold isSuppressionGroupByDisabled, areSuppressionFieldsSelected.
    destruct Hselected as [Hthreshold|(field & fields & Hselected)].
    - rewrite Hthreshold. cbn. apply andb_false_r.
    - rewrite Hselected. cbn. rewrite orb_true_r. apply andb_false_r. }
  split; [exact Hconstant|].
  unfold alertSuppressionEditDisabled. rewrite Hconstant.
  destruct (getIsThresholdRule (ruleType i)); reflexivity.
Qed.

(** X12.  An EQL sequence query disables the group-by input only when
    the suppression fields are an empty list: with a sufficient license and
    nothing loading, the suppression input of an EQL rule with a sequence
    query is disabled when [alertSuppressionFields] is the empty list and
    enabled when it is undefined (or not empty). *)
Theorem sequence_disables_only_an_empty_selection i :
  ruleType i = RuleType.eql →
  isEqlSequenceQuery (queryText (watchedQueryBar i)) = true →
  isAlertSuppressionLicenseValid i = true →
  isEsqlSuppressionLoading i = false →
  alertSuppressionEditDisabled isEqlSequenceQuery i
  = bool_decide (alertSuppressionFields i = Some []).
Proof.
  unfold alertSuppressionEditDisabled, isSuppressionGroupByDisabled,
    areSuppressionFieldsDisabled, areSuppressionFieldsDisabledBySequence,
    areSuppressionFieldsDisabledByMlFields, areSuppressionFieldsSelected.
  intros -> -> -> ->. cbn.
  destruct (alertSuppressionFields i) as [[|field fields]|]; reflexivity.
Qed.

(** X13.  The two special reasons exclude each other, and the tooltip
    names the one that holds: the EQL sequence text when a sequence query
    disables the fields (also under an insufficient license), the machine
    learning text when missing job fields do, and the upselling message in
    every other case, also when the input is disabled only because ES|QL
    fields are loading. *)
Theorem disabled_text_names_the_reason i :
  (areSuppressionFieldsDisabledBySequence isEqlSequenceQuery i = true →
   areSuppressionFieldsDisabledByMlFields i = false
   ∧ suppressionGroupByDisabledText isEqlSequenceQuery eqlTooltip mlLabel i = eqlTooltip)
  ∧ (areSuppressionFieldsDisabledByMlFields i = true →
     areSuppressionFieldsDisabledBySequence isEqlSequenceQuery i = false
     ∧ suppressionGroupByDisabledText isEqlSequenceQuery eqlTooltip mlLabel i = mlLabel)
  ∧ (areSuppressionFieldsDisabledBySequence isEqlSequenceQuery i = false →
     areSuppressionFieldsDisabledByMlFields i = false →
     suppressionGroupByDisabledText isEqlSequenceQuery eqlTooltip mlLabel i
     = alertSuppressionUpsellingMessage i).
Proof.
  unfold suppressionGroupByDisabledText.
  destruct (areSuppressionFieldsDisabledBySequence isEqlSequenceQuery i) eqn:Hsequence;
    destruct (areSuppressionFieldsDisabledByMlFields i) eqn:Hml.
  - exfalso.
    unfold areSuppressionFieldsDisabledBySequence in Hsequence.
    unfold areSuppressionFieldsDisabledByMlFields in Hml.
    apply andb_true_iff in Hsequence as [Heql _]. apply andb_true_iff in Heql as [Heql _].
    apply andb_true_iff in Hml as [Hml _].
    apply bool_decide_eq_true in Heql, Hml. congruence.
  - repeat split; done.
  - repeat split; done.
  - repeat split; done.
Qed.

End Suppression.


Import StepDefineRuleFieldsDemo.

Lemma selected_suppression_fields_witness :
  (∃ field fields,
      alertSuppressionFields (eqlSequenceRule (Some ["host.name"])) = Some (field :: fields))
  ∧ isSuppressionGroupByDisabled startsWithSequence (eqlSequenceRule (Some ["host.name"]))
    = false
  ∧ alertSuppressionEditDisabled startsWithSequence (eqlSequenceRule (Some ["host.name"]))
    = getIsThresholdRule (ruleType (eqlSequenceRule (Some ["host.name"])))
      && negb (isAlertSuppressionLicenseValid (eqlSequenceRule (Some ["host.name"]))).
Proof.
  split; [by eexists _, _|].
  apply (selected_suppression_fields_stay_enabled startsWithSequence
           (eqlSequenceRule (Some ["host.name"]))).
  right. by eexists _, _.
Defined.

Lemma sequence_disables_empty_selection_witness :
  startsWithSequence (queryText (watchedQueryBar (eqlSequenceRule (Some [])))) = true
  ∧ alertSuppressionEditDisabled startsWithSequence (eqlSequenceRule (Some []))
    = bool_decide (alertSuppressionFields (eqlSequenceRule (Some [])) = Some [])
  ∧ alertSuppressionEditDisabled startsWithSequence (eqlSequenceRule None)
    = bool_decide (alertSuppressionFields (eqlSequenceRule None) = Some []).
Proof.
  split; [reflexivity|]. split.
  - apply (sequence_disables_only_an_empty_selection startsWithSequence
             (eqlSequenceRule (Some []))); reflexivity.
  - apply (sequence_disables_only_an_empty_selection startsWithSequence
             (eqlSequenceRule None)); reflexivity.
Defined.

End StepDefineRuleFieldsFacts.
